(** * MightyDev: the BGE embedding facade ([src-tauri/python/bge_embed.py])

    A shallow embedding of the Python module that wraps a pretrained
    sentence-embedding model: the class [BGEEmbedder] (constructor,
    [embed_text], [embed_batch]), the module global [_model] with its lazy
    accessor [get_model], and the two convenience functions [embed_text] and
    [embed_text_batch].

    The module is effectful: it prints, it raises, it mutates one global and
    it calls an external library.  Python computations are therefore
    functions from a process state to an outcome and a new state. *)

From Stdlib Require Import List String Ascii ZArith Bool Arith Lia.
From Stdlib Require Import DecimalString.
From Stdlib Require DecimalZ.
Import ListNotations.
Open Scope string_scope.

Set Implicit Arguments.

(** ** Exceptions *)

(** A raised exception object: the method resolution order of its class
    (the class itself first, [object] last) and what [str(e)] gives. *)
Record exn := mkExn {
  exn_mro : list string;
  exn_msg : string
}.

(** [isinstance(e, cls)] for exception objects. *)
Definition isinstance_exn (e : exn) (cls : string) : bool :=
  existsb (String.eqb cls) (exn_mro e).

(** [str(e)]. *)
Definition str_exn (e : exn) : string := exn_msg e.

(** The outcome of running a Python computation. *)
Inductive outcome (A : Type) : Type :=
| Return (a : A)
| Raise (e : exn).
Arguments Return {A} a.
Arguments Raise {A} e.

Definition returned {A} (r : outcome A) : option A :=
  match r with Return a => Some a | Raise _ => None end.

(** ** Built-in exception classes the facade can meet *)

Definition mro_Exception : list string :=
  ["Exception"; "BaseException"; "object"].

Definition IndexError (msg : string) : exn :=
  {| exn_mro := "IndexError" :: "LookupError" :: mro_Exception;
     exn_msg := msg |}.

Definition ValueError (msg : string) : exn :=
  {| exn_mro := "ValueError" :: mro_Exception; exn_msg := msg |}.

Definition OSError (msg : string) : exn :=
  {| exn_mro := "OSError" :: mro_Exception; exn_msg := msg |}.

Definition KeyboardInterrupt : exn :=
  {| exn_mro := ["KeyboardInterrupt"; "BaseException"; "object"];
     exn_msg := "" |}.

(** ** Python values handed to the facade *)

(** The argument of [embed_text] is annotated [str] but any value is
    accepted.  Strings, integers, booleans and [None] are spelled out.  Any
    other object (a float, a list, a dict, an instance of a user class; not
    of a subclass of [str]) is given by its class and by what [str()] does
    on it: return a string or raise. *)
Inductive value :=
| VStr (s : string)
| VInt (n : Z)
| VBool (b : bool)
| VNone
| VObject (cls : string) (str_result : outcome string).

(** [isinstance(v, str)]. *)
Definition isinstance_str (v : value) : bool :=
  match v with VStr _ => true | _ => false end.

(** [sys.get_int_max_str_digits()], as the interpreter starts. *)
Definition int_max_str_digits : nat := 4300.

Definition nb_digits_int (d : Decimal.int) : nat :=
  match d with
  | Decimal.Pos u | Decimal.Neg u => Decimal.nb_digits u
  end.

Definition int_str_limit_error : exn :=
  ValueError ("Exceeds the limit (4300 digits) for integer string " ++
              "conversion; use sys.set_int_max_str_digits() to " ++
              "increase the limit").

(** [str(n)] for an integer: its decimal digits, unless there are more
    than [int_max_str_digits] of them. *)
Definition str_int (n : Z) : outcome string :=
  let d := Z.to_int n in
  if Nat.ltb int_max_str_digits (nb_digits_int d)
  then Raise int_str_limit_error
  else Return (NilZero.string_of_int d).

(** [str(v)].  It reads and writes nothing of the process state, but it
    can raise. *)
Definition str (v : value) : outcome string :=
  match v with
  | VStr s => Return s
  | VInt n => str_int n
  | VBool true => Return "True"
  | VBool false => Return "False"
  | VNone => Return "None"
  | VObject _ str_result => str_result
  end.

(** [[str(t) for t in texts]]: the elements in order, up to the first one
    on which [str] raises. *)
Fixpoint str_all (texts : list value) : outcome (list string) :=
  match texts with
  | [] => Return []
  | t :: rest =>
      match str t with
      | Raise e => Raise e
      | Return x =>
          match str_all rest with
          | Raise e => Raise e
          | Return xs => Return (x :: xs)
          end
      end
  end.

(** ** The external library *)

(** [sentence_transformers], as far as the facade uses it.  Loading and
    inference depend on the host environment (files, network, memory) and may
    change it, so both take and return a [world].  [encode] yields a
    two-dimensional array, one row per input text. *)
Class SentenceTransformers := {
  float : Type;
  ndmodel : Type;
  world : Type;
  SentenceTransformer : string -> world -> outcome ndmodel * world;
  encode :
    ndmodel -> list string -> world -> outcome (list (list float)) * world
}.

(** What the process does that can be seen from outside, in order. *)
Inductive event :=
| Print (line : string)
| Construct (model_name : string) (ok : bool)
| Encode (texts : list string) (ok : bool).

Definition is_Construct (ev : event) : bool :=
  match ev with Construct _ _ => true | _ => false end.

Definition is_Constructed (ev : event) : bool :=
  match ev with Construct _ ok => ok | _ => false end.

Definition is_Encode (ev : event) : bool :=
  match ev with Encode _ _ => true | _ => false end.

Definition is_ok {A} (r : outcome A) : bool :=
  match r with Return _ => true | Raise _ => false end.

(** ** The class [BGEEmbedder]: instances *)

(** An instance: its identity ([id(self)]) and the attribute [self.model]. *)
Record BGEEmbedder `{L : SentenceTransformers} := mkBGEEmbedder {
  id : nat;
  model : ndmodel
}.

(** ** Process state *)

Record state `{L : SentenceTransformers} := mkState {
  _model : option BGEEmbedder;     (* the module global *)
  trace : list event;              (* oldest event first *)
  next_id : nat;                   (* objects allocated so far *)
  env : world
}.

(** The state of a process that has just imported the module. *)
Definition initial `{L : SentenceTransformers} (w : world) : state :=
  {| _model := None; trace := []; next_id := 0; env := w |}.

(** ** Python computations *)

Definition Py `{L : SentenceTransformers} (A : Type) : Type :=
  state -> outcome A * state.

Section Monad.
Context `{L : SentenceTransformers}.

Definition ret {A} (a : A) : Py A := fun s => (Return a, s).

Definition raise {A} (e : exn) : Py A := fun s => (Raise e, s).

Definition bind {A B} (c : Py A) (k : A -> Py B) : Py B :=
  fun s =>
    match c s with
    | (Return a, s') => k a s'
    | (Raise e, s') => (Raise e, s')
    end.

(** [try: body / except Exception as e: handler e].  Only instances of
    [Exception] are caught; anything else passes through. *)
Definition try_except_Exception {A} (body : Py A) (handler : exn -> Py A)
  : Py A :=
  fun s =>
    match body s with
    | (Return a, s') => (Return a, s')
    | (Raise e, s') =>
        if isinstance_exn e "Exception" then handler e s'
        else (Raise e, s')
    end.

Definition emit (ev : event) : Py unit :=
  fun s => (Return tt,
            {| _model := _model s; trace := trace s ++ [ev];
               next_id := next_id s; env := env s |}).

(** A call of a built-in that leaves the process state alone. *)
Definition builtin {A} (r : outcome A) : Py A := fun s => (r, s).

(** [print(line)]. *)
Definition print (line : string) : Py unit := emit (Print line).

(** [global _model] read and write. *)
Definition load_model : Py (option BGEEmbedder) :=
  fun s => (Return (_model s), s).

Definition store_model (h : BGEEmbedder) : Py unit :=
  fun s => (Return tt,
            {| _model := Some h; trace := trace s;
               next_id := next_id s; env := env s |}).

(** Allocation of a fresh object; returns its identity. *)
Definition alloc : Py nat :=
  fun s => (Return (next_id s),
            {| _model := _model s; trace := trace s;
               next_id := S (next_id s); env := env s |}).

(** A call into the external library: it runs on the environment and the
    call is recorded in the trace. *)
Definition extern {A} (f : world -> outcome A * world)
           (ev : bool -> event) : Py A :=
  fun s =>
    let (r, w) := f (env s) in
    (r, {| _model := _model s; trace := trace s ++ [ev (is_ok r)];
           next_id := next_id s; env := w |}).

End Monad.

Declare Scope py_scope.
Delimit Scope py_scope with py.
Notation "x <- c ;; k" := (bind c (fun x => k))
  (at level 61, c at next level, right associativity) : py_scope.
Notation "c ;; k" := (bind c (fun _ => k))
  (at level 61, right associativity) : py_scope.
Open Scope py_scope.

(** ** The class [BGEEmbedder]: methods *)

Module BGEEmbedder.

Section Methods.
Context `{L : SentenceTransformers}.

(** [__init__(self, model_name)], lines 5-12.  The result is the value
    bound to [self.model]. *)
Definition __init__ (model_name : string) : Py ndmodel :=
  try_except_Exception
    (print ("Initializing BGE model: " ++ model_name) ;;
     m <- extern (SentenceTransformer model_name) (Construct model_name) ;;
     print "Model initialized successfully" ;;
     ret m)
    (fun e =>
       print ("Error initializing model: " ++ str_exn e) ;;
       raise e).

(** The call [BGEEmbedder(model_name)]: a fresh object, then [__init__] on
    it.  The object reaches the caller only if [__init__] returns. *)
Definition new (model_name : string) : Py BGEEmbedder :=
  oid <- alloc ;;
  m <- __init__ model_name ;;
  ret {| id := oid; model := m |}.

(** [arr[0]] on the array [encode] returned. *)
Definition getitem0 {A} (arr : list A) : Py A :=
  match arr with
  | [] => raise (IndexError "index 0 is out of bounds for axis 0 with size 0")
  | row :: _ => ret row
  end.

(** [row.tolist()]: the same numbers as a Python list. *)
Definition tolist (row : list float) : list float := row.

(** [embed_text(self, text)], lines 14-28. *)
Definition embed_text (self : BGEEmbedder) (text : value) : Py (list float) :=
  try_except_Exception
    (text <- match text with
             | VStr s => ret s
             | other => builtin (str other)
             end ;;
     arr <- extern (encode (model self) [text]) (Encode [text]) ;;
     embedding <- getitem0 arr ;;
     ret (tolist embedding))
    (fun e =>
       print ("Error generating embedding: " ++ str_exn e) ;;
       raise e).

(** [embed_batch(self, texts)], lines 30-43.  [texts] is the list of the
    elements that iterating over the argument yields. *)
Definition embed_batch (self : BGEEmbedder) (texts : list value)
  : Py (list (list float)) :=
  try_except_Exception
    (texts <- builtin (str_all texts) ;;
     embeddings <- extern (encode (model self) texts) (Encode texts) ;;
     ret (map tolist embeddings))
    (fun e =>
       print ("Error generating batch embeddings: " ++ str_exn e) ;;
       raise e).

End Methods.
End BGEEmbedder.

(** ** Module level, lines 45-60 *)

Section ModuleLevel.
Context `{L : SentenceTransformers}.

(** The default of [model_name]. *)
Definition default_model_name : string := "BAAI/bge-m3".

(** [get_model()]. *)
Definition get_model : Py BGEEmbedder :=
  m <- load_model ;;
  match m with
  | None =>
      h <- BGEEmbedder.new default_model_name ;;
      store_model h ;;
      ret h
  | Some h => ret h
  end.

(** [embed_text(text)]. *)
Definition embed_text (text : value) : Py (list float) :=
  h <- get_model ;;
  BGEEmbedder.embed_text h text.

(** [embed_text_batch(texts)]. *)
Definition embed_text_batch (texts : list value) : Py (list (list float)) :=
  h <- get_model ;;
  BGEEmbedder.embed_batch h texts.

End ModuleLevel.

(** ** A process making calls *)

(** The three entry points a caller has, and what they give back.  A caller
    that survives an exception goes on with the next call. *)
Inductive call :=
| GetModel
| EmbedText (text : value)
| EmbedTextBatch (texts : list value).

Section Calls.
Context `{L : SentenceTransformers}.

Inductive response :=
| Handle (h : BGEEmbedder)
| Vector (v : list float)
| Vectors (vs : list (list float)).

Definition run_call (c : call) : Py response :=
  match c with
  | GetModel => h <- get_model ;; ret (Handle h)
  | EmbedText text => v <- embed_text text ;; ret (Vector v)
  | EmbedTextBatch texts => vs <- embed_text_batch texts ;; ret (Vectors vs)
  end.

Fixpoint run_calls (cs : list call) (s : state)
  : list (outcome response) * state :=
  match cs with
  | [] => ([], s)
  | c :: cs' =>
      let (r, s1) := run_call c s in
      let (rs, s2) := run_calls cs' s1 in
      (r :: rs, s2)
  end.

(** [n] calls of [get_model()] in a row. *)
Definition get_model_times (n : nat)
  : state -> list (outcome response) * state :=
  run_calls (repeat GetModel n).

(** Events of one kind in a trace. *)
Definition constructor_calls (s : state) : nat :=
  List.length (filter is_Construct (trace s)).

Definition constructed (s : state) : nat :=
  List.length (filter is_Constructed (trace s)).

Definition encode_calls (s : state) : nat :=
  List.length (filter is_Encode (trace s)).

(** The lines the facade prints on failure all start with [Error]. *)
Definition is_error_line (ev : event) : bool :=
  match ev with
  | Print line => prefix "Error" line
  | _ => false
  end.

Definition error_lines (s : state) : nat :=
  List.length (filter is_error_line (trace s)).

End Calls.

(** A failure is an exception derived from [Exception].  The classes that
    derive from [BaseException] only ([KeyboardInterrupt], [SystemExit],
    [GeneratorExit]) ask the process to stop; they are not errors. *)
Definition failure (e : exn) : Prop := isinstance_exn e "Exception" = true.

(** ** A small library to run the facade on *)

Module Demo.

(** The environment is the number of load attempts that will still fail. *)
Definition load (model_name : string) (w : nat) : outcome string * nat :=
  match w with
  | O => (Return model_name, O)
  | S k => (Raise (OSError ("cannot load " ++ model_name)), k)
  end.

Definition encode1 (x : string) : list Z :=
  [Z.of_nat (String.length x); 1%Z].

(** Inference rejects the empty text. *)
Definition infer (m : string) (xs : list string) (w : nat)
  : outcome (list (list Z)) * nat :=
  if existsb (String.eqb "") xs
  then (Raise (ValueError "empty text"), w)
  else (Return (map encode1 xs), w).

Definition lib : SentenceTransformers :=
  {| float := Z; ndmodel := string; world := nat;
     SentenceTransformer := load; encode := infer |}.


(** A library whose loading is interrupted from the keyboard. *)
Definition interrupted : SentenceTransformers :=
  {| float := Z; ndmodel := string; world := nat;
     SentenceTransformer := fun _ w => (Raise KeyboardInterrupt, w);
     encode := fun _ xs w => (Return (map encode1 xs), w) |}.

(** An instance as [get_model] builds it, and a state that holds it. *)
Definition handle (L : SentenceTransformers) (m : @ndmodel L)
  : @BGEEmbedder L := {| id := 0; model := m |}.

Definition ready (L : SentenceTransformers) (m : @ndmodel L) (w : @world L)
  : @state L :=
  {| _model := Some (handle L m); trace := []; next_id := 1; env := w |}.

(** The default model as [get_model] would hold it after one failed and one
    successful load, and the state around it. *)
Definition name : string := "BAAI/bge-m3".

Definition self : @BGEEmbedder lib := handle lib name.

Definition warm : @state lib := ready lib name 0%nat.



Definition empty_text : exn := ValueError "empty text".

(** A library whose inference gives back an array without rows. *)
Definition hollow : SentenceTransformers :=
  {| float := Z; ndmodel := string; world := nat;
     SentenceTransformer := load;
     encode := fun _ _ w => (Return [], w) |}.

(** A library in which every call is interrupted from the keyboard. *)
Definition stopped : SentenceTransformers :=
  {| float := Z; ndmodel := string; world := nat;
     SentenceTransformer := fun _ w => (Raise KeyboardInterrupt, w);
     encode := fun _ _ w => (Raise KeyboardInterrupt, w) |}.

Definition hollow_self : @BGEEmbedder hollow := handle hollow name.

Definition hollow_warm : @state hollow := ready hollow name 0%nat.

Definition stopped_self : @BGEEmbedder stopped := handle stopped name.

Definition stopped_warm : @state stopped := ready stopped name 0%nat.

(** A process that has just started, with [k] loads still to fail. *)
Definition fresh (k : nat) : @state lib := initial (L := lib) k.


(** The integer written as 1 followed by 4300 zeros: 4301 digits. *)
Definition huge : value :=
  VInt (Z.of_int
          (Decimal.Pos (Decimal.D1 (Nat.iter 4300 Decimal.D0 Decimal.Nil)))).

(** A float and an instance of a class whose [__str__] raises. *)
Definition pi : value := VObject "float" (Return "3.14").

Definition broken : value :=
  VObject "Broken" (Raise (ValueError "no string form")).

End Demo.

(** ** Vocabulary of the properties *)

(** [r] is an exception of class [cls]. *)
Definition raises_a {A} (cls : string) (r : outcome A) : Prop :=
  exists e, r = Raise e /\ isinstance_exn e cls = true.

Section Reachable.
Context `{L : SentenceTransformers}.

(** The state [get_model] leaves after a successful and after a failed
    construction. *)
Definition loaded (s : state) (m : ndmodel) (w : world) : state :=
  {| _model := Some {| id := next_id s; model := m |};
     trace := trace s ++
       [Print ("Initializing BGE model: " ++ default_model_name);
        Construct default_model_name true;
        Print "Model initialized successfully"];
     next_id := S (next_id s); env := w |}.

Definition load_failed (s : state) (e : exn) (w : world) : state :=
  {| _model := None;
     trace := trace s ++
       Print ("Initializing BGE model: " ++ default_model_name)
       :: Construct default_model_name false
       :: (if isinstance_exn e "Exception"
           then [Print ("Error initializing model: " ++ str_exn e)]
           else []);
     next_id := S (next_id s); env := w |}.


(** What a call does once [get_model()] has given it the handle. *)
Definition serve (c : call) (h : BGEEmbedder) : Py response :=
  match c with
  | GetModel => ret (Handle h)
  | EmbedText text =>
      v <- BGEEmbedder.embed_text h text ;; ret (Vector v)
  | EmbedTextBatch texts =>
      vs <- BGEEmbedder.embed_batch h texts ;; ret (Vectors vs)
  end.

(** The number of [encode] calls a call makes once it has the handle:
    one for an embedding call whose inputs all have a string form. *)
Definition encodes (c : call) : nat :=
  match c with
  | GetModel => 0
  | EmbedText text => if is_ok (str text) then 1 else 0
  | EmbedTextBatch texts => if is_ok (str_all texts) then 1 else 0
  end.

End Reachable.

(** The expression [f(str(x))]: the caller takes the string form of [x]
    first, outside the facade, and then calls [f] on it. *)
Definition on_str `{L : SentenceTransformers} {A}
    (f : value -> Py A) (x : value) : Py A :=
  t <- builtin (str x) ;; f (VStr t).



(** The number of error lines an outcome calls for: one for a failure,
    none for a result or for an exception outside [Exception]. *)
Definition error_count {A} (r : outcome A) : nat :=
  match r with
  | Return _ => 0
  | Raise e => if isinstance_exn e "Exception" then 1 else 0
  end.

(** A constructor call for another model than the default one. *)
Definition is_foreign_Construct (ev : event) : bool :=
  match ev with
  | Construct model_name _ => negb (String.eqb model_name default_model_name)
  | _ => false
  end.

Definition foreign_constructs `{L : SentenceTransformers} (s : state) : nat :=
  List.length (filter is_foreign_Construct (trace s)).

(** * Properties *)

(** ** How each function runs *)

Ltac py_unfold :=
  unfold BGEEmbedder.new, BGEEmbedder.__init__, BGEEmbedder.embed_text,
    BGEEmbedder.embed_batch, BGEEmbedder.getitem0, BGEEmbedder.tolist,
    try_except_Exception, bind, print, emit, extern, alloc, load_model,
    store_model, builtin, ret, raise.

Ltac py_run :=
  py_unfold; cbn [fst snd _model trace next_id env];
  repeat match goal with
         | H : ?f = (_, _) |- context [?f] =>
             rewrite H; cbn [fst snd _model trace next_id env is_ok]
         | H : failure ?e |- context [isinstance_exn ?e "Exception"] =>
             rewrite H
         | H : isinstance_exn ?e _ = _ |- context [isinstance_exn ?e _] =>
             rewrite H
         end;
  rewrite <- ?app_assoc; cbn [app].

Section Runs.
Context `{L : SentenceTransformers}.

(** The test [isinstance(text, str)] changes nothing: [str] gives a string
    back as it is. *)
Lemma coerce_is_str (text : value) :
  match text with
  | VStr s => ret s
  | other => builtin (str other)
  end = builtin (str text).
Proof. destruct text; reflexivity. Qed.

Lemma init_returns (model_name : string) (s : state) m w :
  SentenceTransformer model_name (env s) = (Return m, w) ->
  BGEEmbedder.__init__ model_name s =
    (Return m,
     {| _model := _model s;
        trace := trace s ++
          [Print ("Initializing BGE model: " ++ model_name);
           Construct model_name true;
           Print "Model initialized successfully"];
        next_id := next_id s; env := w |}).
Proof. intros Hload. py_run. reflexivity. Qed.

Lemma init_fails (model_name : string) (s : state) e w :
  SentenceTransformer model_name (env s) = (Raise e, w) ->
  failure e ->
  BGEEmbedder.__init__ model_name s =
    (Raise e,
     {| _model := _model s;
        trace := trace s ++
          [Print ("Initializing BGE model: " ++ model_name);
           Construct model_name false;
           Print ("Error initializing model: " ++ str_exn e)];
        next_id := next_id s; env := w |}).
Proof. intros Hload He. py_run. reflexivity. Qed.

Lemma init_passes (model_name : string) (s : state) e w :
  SentenceTransformer model_name (env s) = (Raise e, w) ->
  isinstance_exn e "Exception" = false ->
  BGEEmbedder.__init__ model_name s =
    (Raise e,
     {| _model := _model s;
        trace := trace s ++
          [Print ("Initializing BGE model: " ++ model_name);
           Construct model_name false];
        next_id := next_id s; env := w |}).
Proof. intros Hload He. py_run. reflexivity. Qed.

Lemma new_returns (model_name : string) (s : state) m w :
  SentenceTransformer model_name (env s) = (Return m, w) ->
  BGEEmbedder.new model_name s =
    (Return {| id := next_id s; model := m |},
     {| _model := _model s;
        trace := trace s ++
          [Print ("Initializing BGE model: " ++ model_name);
           Construct model_name true;
           Print "Model initialized successfully"];
        next_id := S (next_id s); env := w |}).
Proof. intros Hload. py_run. reflexivity. Qed.

Lemma new_fails (model_name : string) (s : state) e w :
  SentenceTransformer model_name (env s) = (Raise e, w) ->
  failure e ->
  BGEEmbedder.new model_name s =
    (Raise e,
     {| _model := _model s;
        trace := trace s ++
          [Print ("Initializing BGE model: " ++ model_name);
           Construct model_name false;
           Print ("Error initializing model: " ++ str_exn e)];
        next_id := S (next_id s); env := w |}).
Proof. intros Hload He. py_run. reflexivity. Qed.

Lemma new_passes (model_name : string) (s : state) e w :
  SentenceTransformer model_name (env s) = (Raise e, w) ->
  isinstance_exn e "Exception" = false ->
  BGEEmbedder.new model_name s =
    (Raise e,
     {| _model := _model s;
        trace := trace s ++
          [Print ("Initializing BGE model: " ++ model_name);
           Construct model_name false];
        next_id := S (next_id s); env := w |}).
Proof. intros Hload He. py_run. reflexivity. Qed.

Lemma embed_text_str_fails (self : BGEEmbedder) text (s : state) e :
  str text = Raise e ->
  failure e ->
  BGEEmbedder.embed_text self text s =
    (Raise e,
     {| _model := _model s;
        trace := trace s ++
          [Print ("Error generating embedding: " ++ str_exn e)];
        next_id := next_id s; env := env s |}).
Proof.
  intros Hstr He. unfold BGEEmbedder.embed_text.
  rewrite coerce_is_str, Hstr. py_run. reflexivity.
Qed.

Lemma embed_text_str_passes (self : BGEEmbedder) text (s : state) e :
  str text = Raise e ->
  isinstance_exn e "Exception" = false ->
  BGEEmbedder.embed_text self text s = (Raise e, s).
Proof.
  intros Hstr He. unfold BGEEmbedder.embed_text.
  rewrite coerce_is_str, Hstr. py_run. reflexivity.
Qed.

Lemma embed_text_returns
    (self : BGEEmbedder) text (s : state) t row rows w :
  str text = Return t ->
  encode (model self) [t] (env s) = (Return (row :: rows), w) ->
  BGEEmbedder.embed_text self text s =
    (Return row,
     {| _model := _model s; trace := trace s ++ [Encode [t] true];
        next_id := next_id s; env := w |}).
Proof.
  intros Hstr Henc. unfold BGEEmbedder.embed_text.
  rewrite coerce_is_str, Hstr. py_run. reflexivity.
Qed.

Lemma embed_text_no_row (self : BGEEmbedder) text (s : state) t w :
  str text = Return t ->
  encode (model self) [t] (env s) = (Return [], w) ->
  let e := IndexError "index 0 is out of bounds for axis 0 with size 0" in
  BGEEmbedder.embed_text self text s =
    (Raise e,
     {| _model := _model s;
        trace := trace s ++
          [Encode [t] true;
           Print ("Error generating embedding: " ++ str_exn e)];
        next_id := next_id s; env := w |}).
Proof.
  intros Hstr Henc. unfold BGEEmbedder.embed_text.
  rewrite coerce_is_str, Hstr. py_run. reflexivity.
Qed.

Lemma embed_text_fails (self : BGEEmbedder) text (s : state) t e w :
  str text = Return t ->
  encode (model self) [t] (env s) = (Raise e, w) ->
  failure e ->
  BGEEmbedder.embed_text self text s =
    (Raise e,
     {| _model := _model s;
        trace := trace s ++
          [Encode [t] false;
           Print ("Error generating embedding: " ++ str_exn e)];
        next_id := next_id s; env := w |}).
Proof.
  intros Hstr Henc He. unfold BGEEmbedder.embed_text.
  rewrite coerce_is_str, Hstr. py_run. reflexivity.
Qed.

Lemma embed_text_passes (self : BGEEmbedder) text (s : state) t e w :
  str text = Return t ->
  encode (model self) [t] (env s) = (Raise e, w) ->
  isinstance_exn e "Exception" = false ->
  BGEEmbedder.embed_text self text s =
    (Raise e,
     {| _model := _model s; trace := trace s ++ [Encode [t] false];
        next_id := next_id s; env := w |}).
Proof.
  intros Hstr Henc He. unfold BGEEmbedder.embed_text.
  rewrite coerce_is_str, Hstr. py_run. reflexivity.
Qed.

Lemma embed_batch_str_fails (self : BGEEmbedder) texts (s : state) e :
  str_all texts = Raise e ->
  failure e ->
  BGEEmbedder.embed_batch self texts s =
    (Raise e,
     {| _model := _model s;
        trace := trace s ++
          [Print ("Error generating batch embeddings: " ++ str_exn e)];
        next_id := next_id s; env := env s |}).
Proof.
  intros Hstr He. unfold BGEEmbedder.embed_batch.
  rewrite Hstr. py_run. reflexivity.
Qed.

Lemma embed_batch_str_passes (self : BGEEmbedder) texts (s : state) e :
  str_all texts = Raise e ->
  isinstance_exn e "Exception" = false ->
  BGEEmbedder.embed_batch self texts s = (Raise e, s).
Proof.
  intros Hstr He. unfold BGEEmbedder.embed_batch.
  rewrite Hstr. py_run. reflexivity.
Qed.

Lemma embed_batch_returns (self : BGEEmbedder) texts (s : state) ts rows w :
  str_all texts = Return ts ->
  encode (model self) ts (env s) = (Return rows, w) ->
  BGEEmbedder.embed_batch self texts s =
    (Return rows,
     {| _model := _model s; trace := trace s ++ [Encode ts true];
        next_id := next_id s; env := w |}).
Proof.
  intros Hstr Henc. unfold BGEEmbedder.embed_batch.
  rewrite Hstr. py_run. rewrite map_id. reflexivity.
Qed.

Lemma embed_batch_fails (self : BGEEmbedder) texts (s : state) ts e w :
  str_all texts = Return ts ->
  encode (model self) ts (env s) = (Raise e, w) ->
  failure e ->
  BGEEmbedder.embed_batch self texts s =
    (Raise e,
     {| _model := _model s;
        trace := trace s ++
          [Encode ts false;
           Print ("Error generating batch embeddings: " ++ str_exn e)];
        next_id := next_id s; env := w |}).
Proof.
  intros Hstr Henc He. unfold BGEEmbedder.embed_batch.
  rewrite Hstr. py_run. reflexivity.
Qed.

Lemma embed_batch_passes (self : BGEEmbedder) texts (s : state) ts e w :
  str_all texts = Return ts ->
  encode (model self) ts (env s) = (Raise e, w) ->
  isinstance_exn e "Exception" = false ->
  BGEEmbedder.embed_batch self texts s =
    (Raise e,
     {| _model := _model s; trace := trace s ++ [Encode ts false];
        next_id := next_id s; env := w |}).
Proof.
  intros Hstr Henc He. unfold BGEEmbedder.embed_batch.
  rewrite Hstr. py_run. reflexivity.
Qed.

Lemma new_cases (model_name : string) (s : state) :
  (exists m w,
      SentenceTransformer model_name (env s) = (Return m, w)
      /\ BGEEmbedder.new model_name s =
           (Return {| id := next_id s; model := m |},
            {| _model := _model s;
               trace := trace s ++
                 [Print ("Initializing BGE model: " ++ model_name);
                  Construct model_name true;
                  Print "Model initialized successfully"];
               next_id := S (next_id s); env := w |}))
  \/ (exists e w,
         SentenceTransformer model_name (env s) = (Raise e, w)
         /\ isinstance_exn e "Exception" = true
         /\ BGEEmbedder.new model_name s =
              (Raise e,
               {| _model := _model s;
                  trace := trace s ++
                    [Print ("Initializing BGE model: " ++ model_name);
                     Construct model_name false;
                     Print ("Error initializing model: " ++ str_exn e)];
                  next_id := S (next_id s); env := w |}))
  \/ (exists e w,
         SentenceTransformer model_name (env s) = (Raise e, w)
         /\ isinstance_exn e "Exception" = false
         /\ BGEEmbedder.new model_name s =
              (Raise e,
               {| _model := _model s;
                  trace := trace s ++
                    [Print ("Initializing BGE model: " ++ model_name);
                     Construct model_name false];
                  next_id := S (next_id s); env := w |})).
Proof.
  destruct (SentenceTransformer model_name (env s)) as [[m|e] w] eqn:Hload.
  - left. exists m, w. split; [reflexivity|].
    apply (new_returns _ _ Hload).
  - destruct (isinstance_exn e "Exception") eqn:He.
    + right; left. exists e, w. repeat split; trivial.
      apply (new_fails _ _ Hload He).
    + right; right. exists e, w. repeat split; trivial.
      apply (new_passes _ _ Hload He).
Qed.

(** The ways [embed_text] and [embed_batch] can go, as one case analysis
    each. *)
Lemma embed_text_cases (self : BGEEmbedder) text (s : state) :
  (exists e,
      str text = Raise e
      /\ isinstance_exn e "Exception" = true
      /\ BGEEmbedder.embed_text self text s =
           (Raise e,
            {| _model := _model s;
               trace := trace s ++
                 [Print ("Error generating embedding: " ++ str_exn e)];
               next_id := next_id s; env := env s |}))
  \/ (exists e,
         str text = Raise e
         /\ isinstance_exn e "Exception" = false
         /\ BGEEmbedder.embed_text self text s = (Raise e, s))
  \/ (exists t row rows w,
         str text = Return t
         /\ encode (model self) [t] (env s) = (Return (row :: rows), w)
         /\ BGEEmbedder.embed_text self text s =
              (Return row,
               {| _model := _model s; trace := trace s ++ [Encode [t] true];
                  next_id := next_id s; env := w |}))
  \/ (exists t w,
         str text = Return t
         /\ encode (model self) [t] (env s) = (Return [], w)
         /\ BGEEmbedder.embed_text self text s =
              (Raise (IndexError
                        "index 0 is out of bounds for axis 0 with size 0"),
               {| _model := _model s;
                  trace := trace s ++
                    [Encode [t] true;
                     Print ("Error generating embedding: " ++
                            "index 0 is out of bounds for axis 0 with size 0")];
                  next_id := next_id s; env := w |}))
  \/ (exists t e w,
         str text = Return t
         /\ encode (model self) [t] (env s) = (Raise e, w)
         /\ isinstance_exn e "Exception" = true
         /\ BGEEmbedder.embed_text self text s =
              (Raise e,
               {| _model := _model s;
                  trace := trace s ++
                    [Encode [t] false;
                     Print ("Error generating embedding: " ++ str_exn e)];
                  next_id := next_id s; env := w |}))
  \/ (exists t e w,
         str text = Return t
         /\ encode (model self) [t] (env s) = (Raise e, w)
         /\ isinstance_exn e "Exception" = false
         /\ BGEEmbedder.embed_text self text s =
              (Raise e,
               {| _model := _model s; trace := trace s ++ [Encode [t] false];
                  next_id := next_id s; env := w |})).
Proof.
  destruct (str text) as [t|e] eqn:Hstr.
  - destruct (encode (model self) [t] (env s)) as [[rows|e] w] eqn:Henc.
    + destruct rows as [|row rows].
      * do 3 right; left. exists t, w. repeat split; trivial.
        apply (embed_text_no_row _ _ _ Hstr Henc).
      * do 2 right; left. exists t, row, rows, w. repeat split; trivial.
        apply (embed_text_returns _ _ _ Hstr Henc).
    + destruct (isinstance_exn e "Exception") eqn:He.
      * do 4 right; left. exists t, e, w. repeat split; trivial.
        apply (embed_text_fails _ _ _ Hstr Henc He).
      * do 5 right. exists t, e, w. repeat split; trivial.
        apply (embed_text_passes _ _ _ Hstr Henc He).
  - destruct (isinstance_exn e "Exception") eqn:He.
    + left. exists e. repeat split; trivial.
      apply (embed_text_str_fails _ _ _ Hstr He).
    + right; left. exists e. repeat split; trivial.
      apply (embed_text_str_passes _ _ _ Hstr He).
Qed.

Lemma embed_batch_cases (self : BGEEmbedder) texts (s : state) :
  (exists e,
      str_all texts = Raise e
      /\ isinstance_exn e "Exception" = true
      /\ BGEEmbedder.embed_batch self texts s =
           (Raise e,
            {| _model := _model s;
               trace := trace s ++
                 [Print ("Error generating batch embeddings: " ++
                         str_exn e)];
               next_id := next_id s; env := env s |}))
  \/ (exists e,
         str_all texts = Raise e
         /\ isinstance_exn e "Exception" = false
         /\ BGEEmbedder.embed_batch self texts s = (Raise e, s))
  \/ (exists ts rows w,
         str_all texts = Return ts
         /\ encode (model self) ts (env s) = (Return rows, w)
         /\ BGEEmbedder.embed_batch self texts s =
              (Return rows,
               {| _model := _model s; trace := trace s ++ [Encode ts true];
                  next_id := next_id s; env := w |}))
  \/ (exists ts e w,
         str_all texts = Return ts
         /\ encode (model self) ts (env s) = (Raise e, w)
         /\ isinstance_exn e "Exception" = true
         /\ BGEEmbedder.embed_batch self texts s =
              (Raise e,
               {| _model := _model s;
                  trace := trace s ++
                    [Encode ts false;
                     Print ("Error generating batch embeddings: " ++
                            str_exn e)];
                  next_id := next_id s; env := w |}))
  \/ (exists ts e w,
         str_all texts = Return ts
         /\ encode (model self) ts (env s) = (Raise e, w)
         /\ isinstance_exn e "Exception" = false
         /\ BGEEmbedder.embed_batch self texts s =
              (Raise e,
               {| _model := _model s; trace := trace s ++ [Encode ts false];
                  next_id := next_id s; env := w |})).
Proof.
  destruct (str_all texts) as [ts|e] eqn:Hstr.
  - destruct (encode (model self) ts (env s)) as [[rows|e] w] eqn:Henc.
    + do 2 right; left. exists ts, rows, w. repeat split; trivial.
      apply (embed_batch_returns _ _ _ Hstr Henc).
    + destruct (isinstance_exn e "Exception") eqn:He.
      * do 3 right; left. exists ts, e, w. repeat split; trivial.
        apply (embed_batch_fails _ _ _ Hstr Henc He).
      * do 4 right. exists ts, e, w. repeat split; trivial.
        apply (embed_batch_passes _ _ _ Hstr Henc He).
  - destruct (isinstance_exn e "Exception") eqn:He.
    + left. exists e. repeat split; trivial.
      apply (embed_batch_str_fails _ _ _ Hstr He).
    + right; left. exists e. repeat split; trivial.
      apply (embed_batch_str_passes _ _ _ Hstr He).
Qed.

(** The methods never write the module global. *)
Lemma embed_text_keeps_model (self : BGEEmbedder) text (s : state) :
  _model (snd (BGEEmbedder.embed_text self text s)) = _model s.
Proof.
  destruct (embed_text_cases self text s)
    as [(e & _ & _ & ->)
       |[(e & _ & _ & ->)
        |[(t & row & rows & w & _ & _ & ->)
         |[(t & w & _ & _ & ->)
          |[(t & e & w & _ & _ & _ & ->)|(t & e & w & _ & _ & _ & ->)]]]]];
    reflexivity.
Qed.

Lemma embed_batch_keeps_model (self : BGEEmbedder) texts (s : state) :
  _model (snd (BGEEmbedder.embed_batch self texts s)) = _model s.
Proof.
  destruct (embed_batch_cases self texts s)
    as [(e & _ & _ & ->)
       |[(e & _ & _ & ->)
        |[(ts & rows & w & _ & _ & ->)
         |[(ts & e & w & _ & _ & _ & ->)|(ts & e & w & _ & _ & _ & ->)]]]];
    reflexivity.
Qed.

Lemma get_model_cached (s : state) h :
  _model s = Some h -> get_model s = (Return h, s).
Proof.
  intros Hm. unfold get_model, bind, load_model. rewrite Hm. reflexivity.
Qed.

Lemma get_model_builds (s : state) m w :
  _model s = None ->
  SentenceTransformer default_model_name (env s) = (Return m, w) ->
  get_model s =
    (Return {| id := next_id s; model := m |},
     {| _model := Some {| id := next_id s; model := m |};
        trace := trace s ++
          [Print ("Initializing BGE model: " ++ default_model_name);
           Construct default_model_name true;
           Print "Model initialized successfully"];
        next_id := S (next_id s); env := w |}).
Proof.
  intros Hm Hload. unfold get_model, bind at 1, load_model. rewrite Hm.
  unfold bind at 1. rewrite (new_returns _ _ Hload).
  reflexivity.
Qed.

Lemma get_model_raises (s : state) e w :
  _model s = None ->
  SentenceTransformer default_model_name (env s) = (Raise e, w) ->
  get_model s =
    (Raise e,
     {| _model := None;
        trace := trace s ++
          Print ("Initializing BGE model: " ++ default_model_name)
          :: Construct default_model_name false
          :: (if isinstance_exn e "Exception"
              then [Print ("Error initializing model: " ++ str_exn e)]
              else []);
        next_id := S (next_id s); env := w |}).
Proof.
  intros Hm Hload. unfold get_model, bind at 1, load_model. rewrite Hm.
  unfold bind at 1.
  destruct (isinstance_exn e "Exception") eqn:He.
  - rewrite (new_fails _ _ Hload He), Hm. reflexivity.
  - rewrite (new_passes _ _ Hload He), Hm. reflexivity.
Qed.

End Runs.

(** ** Counting events *)

Section Counting.

Lemma count_appended (p : event -> bool) (t more : list event) :
  List.length (filter p (t ++ more)) =
  List.length (filter p t) + List.length (filter p more).
Proof. rewrite filter_app, length_app. reflexivity. Qed.

Lemma last_appended (t : list event) (ev : event) (more : list event) d :
  last (t ++ ev :: more) d = last (ev :: more) d.
Proof.
  induction t as [|x t IH]; [reflexivity|].
  cbn [app]. rewrite <- IH. destruct t; reflexivity.
Qed.

End Counting.

Ltac count_events :=
  unfold error_lines, constructor_calls, constructed, encode_calls;
  cbn [trace]; rewrite ?count_appended;
  cbn; try lia.



(** ** Error handling *)

Section ErrorHandling.
Context `{L : SentenceTransformers}.

(** C1, as amended.  When [encode] fails with [e] during [embed_text] or
    [embed_batch], the method prints one line holding [str(e)] and raises
    the same [e] again; [encode] was called once, nothing is returned and
    the module global is untouched. *)
Theorem inference_failure_logged_and_reraised
    (self : BGEEmbedder) (text : value) (texts : list value)
    (s : state) (e : exn) (w : world) :
  failure e ->
  (forall t,
      str text = Return t ->
      encode (model self) [t] (env s) = (Raise e, w) ->
      BGEEmbedder.embed_text self text s =
        (Raise e,
         {| _model := _model s;
            trace := trace s ++
              [Encode [t] false;
               Print ("Error generating embedding: " ++ str_exn e)];
            next_id := next_id s; env := w |}))
  /\
  (forall ts,
      str_all texts = Return ts ->
      encode (model self) ts (env s) = (Raise e, w) ->
      BGEEmbedder.embed_batch self texts s =
        (Raise e,
         {| _model := _model s;
            trace := trace s ++
              [Encode ts false;
               Print ("Error generating batch embeddings: " ++ str_exn e)];
            next_id := next_id s; env := w |})).
Proof.
  intros He. split.
  - intros t Hstr Henc. now apply embed_text_fails.
  - intros ts Hstr Henc. now apply embed_batch_fails.
Qed.

(** C2, as amended.  When loading the external model fails with [e], the
    constructor call raises that same [e]: the log holds the line with the
    identifier and then the line with [str(e)], the loader was called once,
    no instance is returned and the module global is untouched. *)
Theorem construction_failure_logged_and_reraised
    (model_name : string) (s : state) (e : exn) (w : world) :
  SentenceTransformer model_name (env s) = (Raise e, w) ->
  failure e ->
  BGEEmbedder.new model_name s =
    (Raise e,
     {| _model := _model s;
        trace := trace s ++
          [Print ("Initializing BGE model: " ++ model_name);
           Construct model_name false;
           Print ("Error initializing model: " ++ str_exn e)];
        next_id := S (next_id s); env := w |})
  /\ returned (fst (BGEEmbedder.new model_name s)) = None
  /\ constructor_calls (snd (BGEEmbedder.new model_name s)) =
     S (constructor_calls s).
Proof.
  intros Hload He. rewrite (new_fails _ _ Hload He).
  repeat split. cbn [snd]. count_events.
Qed.


End ErrorHandling.

(** ** The lazy singleton *)

Section Singleton.
Context `{L : SentenceTransformers}.


Lemma bind_bind {A B C} (c : Py A) (k : A -> Py B) (k' : B -> Py C)
    (s : state) :
  bind (bind c k) k' s = bind c (fun a => bind (k a) k') s.
Proof. unfold bind. destruct (c s) as [[a|e] s1]; reflexivity. Qed.

Lemma with_model_cached {A} (k : BGEEmbedder -> Py A) (s : state) h :
  _model s = Some h -> bind get_model k s = k h s.
Proof. intros Hm. unfold bind. now rewrite (get_model_cached _ Hm). Qed.

Lemma with_model_builds {A} (k : BGEEmbedder -> Py A) (s : state) m w :
  _model s = None ->
  SentenceTransformer default_model_name (env s) = (Return m, w) ->
  bind get_model k s = k {| id := next_id s; model := m |} (loaded s m w).
Proof.
  intros Hm Hload. unfold bind. now rewrite (get_model_builds _ Hm Hload).
Qed.

Lemma with_model_raises {A} (k : BGEEmbedder -> Py A) (s : state) e w :
  _model s = None ->
  SentenceTransformer default_model_name (env s) = (Raise e, w) ->
  bind get_model k s = (Raise e, load_failed s e w).
Proof.
  intros Hm Hload. unfold bind. now rewrite (get_model_raises _ Hm Hload).
Qed.

Lemma loaded_counts (s : state) m w :
  constructor_calls (loaded s m w) = S (constructor_calls s)
  /\ constructed (loaded s m w) = S (constructed s).
Proof. split; unfold loaded; count_events. Qed.

Lemma load_failed_counts (s : state) e w :
  constructor_calls (load_failed s e w) = S (constructor_calls s)
  /\ constructed (load_failed s e w) = constructed s.
Proof.
  split; unfold load_failed; destruct (isinstance_exn e "Exception");
    count_events.
Qed.









End Singleton.

Section SingletonClaims.
Context `{L : SentenceTransformers}.

Lemma get_model_uninitialized_constructs (s : state) :
  _model s = None ->
  constructor_calls (snd (get_model s)) = S (constructor_calls s).
Proof.
  intros Hm.
  destruct (SentenceTransformer default_model_name (env s))
    as [[m|e] w] eqn:Hload.
  - rewrite (get_model_builds _ Hm Hload). apply (loaded_counts s m w).
  - rewrite (get_model_raises _ Hm Hload). apply (load_failed_counts s e w).
Qed.


(** C7.  When the constructor fails inside [get_model()], the call raises
    and the module global is still [None]. *)
Theorem get_model_failure_caches_nothing (s : state) (e : exn) (w : world) :
  _model s = None ->
  SentenceTransformer default_model_name (env s) = (Raise e, w) ->
  fst (get_model s) = Raise e /\ _model (snd (get_model s)) = None.
Proof.
  intros Hm Hload. rewrite (get_model_raises _ Hm Hload). split; reflexivity.
Qed.

(** C9.  With the global set, [embed_text] and [embed_text_batch] leave it
    as it is. *)
Theorem embedding_calls_keep_handle
    (s : state) (h : BGEEmbedder) (text : value) (texts : list value) :
  _model s = Some h ->
  _model (snd (embed_text text s)) = Some h
  /\ _model (snd (embed_text_batch texts s)) = Some h.
Proof.
  intros Hm. unfold embed_text, embed_text_batch.
  rewrite !(with_model_cached _ _ Hm).
  now rewrite embed_text_keeps_model, embed_batch_keeps_model.
Qed.

(** C10.  After any number of [get_model()] calls that all failed, the
    global is still [None], every one of these calls went to the
    constructor, the next call goes to the constructor again, and it
    returns and caches a handle if the constructor now succeeds. *)
Theorem failed_get_model_is_retried (n : nat) (s : state) :
  _model s = None ->
  (forall r, In r (fst (get_model_times n s)) -> returned r = None) ->
  let sn := snd (get_model_times n s) in
  _model sn = None
  /\ constructor_calls sn = constructor_calls s + n
  /\ constructor_calls (snd (get_model sn)) = S (constructor_calls sn)
  /\ (forall m w,
        SentenceTransformer default_model_name (env sn) = (Return m, w) ->
        exists h, fst (get_model sn) = Return h
                  /\ model h = m
                  /\ _model (snd (get_model sn)) = Some h).
Proof.
  cbv zeta. intros Hm Hfail.
  assert (Hn : _model (snd (get_model_times n s)) = None
               /\ constructor_calls (snd (get_model_times n s)) =
                  constructor_calls s + n).
  { revert s Hm Hfail. unfold get_model_times.
    induction n as [|n IH]; intros s Hm Hfail; cbn [repeat run_calls].
    - cbn [snd]. split; [assumption | lia].
    - cbn [repeat run_calls] in Hfail. unfold run_call in *.
      destruct (SentenceTransformer default_model_name (env s))
        as [[m|e] w] eqn:Hload.
      + rewrite (with_model_builds _ _ Hm Hload) in Hfail.
        cbn [ret] in Hfail.
        destruct (run_calls (repeat GetModel n) (loaded s m w)) as [rs s2].
        specialize (Hfail _ (or_introl eq_refl)). discriminate.
      + rewrite (with_model_raises _ _ Hm Hload) in *.
        destruct (IH (load_failed s e w) eq_refl) as (Hg & Hc).
        { intros r Hin. apply Hfail.
          destruct (run_calls (repeat GetModel n) (load_failed s e w)).
          right. exact Hin. }
        destruct (run_calls (repeat GetModel n) (load_failed s e w))
          as [rs s2].
        cbn [snd] in *. split; [assumption|].
        rewrite Hc. destruct (load_failed_counts s e w) as [-> _]. lia. }
  destruct Hn as (Hg & Hc).
  repeat split; trivial.
  - now apply get_model_uninitialized_constructs.
  - intros m w Hload. rewrite (get_model_builds _ Hg Hload).
    eexists. repeat split.
Qed.

End SingletonClaims.


(** ** The two embedding paths *)

Section Coercion.

(** The integer with 4301 digits has no string form. *)
Lemma str_huge : str Demo.huge = Raise int_str_limit_error.
Proof.
  unfold Demo.huge, str, str_int. rewrite DecimalZ.to_of.
  vm_compute. reflexivity.
Qed.

Lemma str_all_cons (t : value) (rest : list value) :
  str_all (t :: rest) =
  match str t with
  | Raise e => Raise e
  | Return x =>
      match str_all rest with
      | Raise e => Raise e
      | Return xs => Return (x :: xs)
      end
  end.
Proof. reflexivity. Qed.



End Coercion.

Section Embedding.
Context `{L : SentenceTransformers}.





(** C6, as amended.  On an input [x] that is not a string, [embed_text]
    ends in the same result or error as the expression
    [embed_text(str(x))].  When [str(x)] returns [t] the two runs are the
    same altogether, in the method and in the module-level function, and
    [t] is the text handed to [encode].  When [str(x)] raises, [embed_text]
    raises the same exception without calling [encode], after printing one
    error line (none for an exception outside [Exception]). *)
Theorem embed_text_coerces_to_str
    (self : BGEEmbedder) (x : value) (s : state) :
  isinstance_str x = false ->
  fst (BGEEmbedder.embed_text self x s) =
    fst (on_str (BGEEmbedder.embed_text self) x s)
  /\ (forall t,
         str x = Return t ->
         BGEEmbedder.embed_text self x s =
           on_str (BGEEmbedder.embed_text self) x s
         /\ BGEEmbedder.embed_text self x s =
              BGEEmbedder.embed_text self (VStr t) s
         /\ embed_text x s = embed_text (VStr t) s
         /\ exists ok more,
              trace (snd (BGEEmbedder.embed_text self x s)) =
              (trace s ++ Encode [t] ok :: more)%list)
  /\ (forall e,
         str x = Raise e ->
         fst (BGEEmbedder.embed_text self x s) = Raise e
         /\ encode_calls (snd (BGEEmbedder.embed_text self x s)) =
            encode_calls s
         /\ error_lines (snd (BGEEmbedder.embed_text self x s)) =
            error_lines s + (if isinstance_exn e "Exception" then 1 else 0)).
Proof.
  intros _.
  assert (Hsame : forall t, str x = Return t ->
            forall self', BGEEmbedder.embed_text self' x =
                          BGEEmbedder.embed_text self' (VStr t)).
  { intros t Hstr self'. unfold BGEEmbedder.embed_text.
    rewrite coerce_is_str, Hstr. reflexivity. }
  assert (Hraise : forall e, str x = Raise e ->
            fst (BGEEmbedder.embed_text self x s) = Raise e
            /\ encode_calls (snd (BGEEmbedder.embed_text self x s)) =
               encode_calls s
            /\ error_lines (snd (BGEEmbedder.embed_text self x s)) =
               error_lines s
               + (if isinstance_exn e "Exception" then 1 else 0)).
  { intros e Hstr. destruct (isinstance_exn e "Exception") eqn:He.
    - rewrite (embed_text_str_fails _ _ _ Hstr He). cbn [fst snd].
      repeat split; count_events.
    - rewrite (embed_text_str_passes _ _ _ Hstr He). cbn [fst snd].
      repeat split; lia. }
  split; [|split; [|exact Hraise]].
  - unfold on_str, bind, builtin. destruct (str x) as [t|e] eqn:Hstr.
    + now rewrite (Hsame t eq_refl).
    + now destruct (Hraise e eq_refl) as (-> & _).
  - intros t Hstr. split; [|split; [|split]].
    + unfold on_str, bind, builtin. rewrite Hstr. now rewrite (Hsame t Hstr).
    + now rewrite (Hsame t Hstr).
    + unfold embed_text, bind. destruct (get_model s) as [[h|e] s1];
        [now rewrite (Hsame t Hstr) | reflexivity].
    + destruct (embed_text_cases self x s)
        as [(e & Hx & _ & _)
           |[(e & Hx & _ & _)
            |[(t' & row & rows & w & Hx & _ & ->)
             |[(t' & w & Hx & _ & ->)
              |[(t' & e & w & Hx & _ & _ & ->)
               |(t' & e & w & Hx & _ & _ & ->)]]]]];
        rewrite Hstr in Hx; try discriminate Hx;
        injection Hx as <-; cbn [snd trace]; now eexists _, _.
Qed.

(** C8.  On the empty sequence [embed_batch] hands the empty list to
    [encode] and, [encode] giving back an array without rows, returns the
    empty list; nothing is raised and no error line is printed. *)
Theorem embed_batch_empty (self : BGEEmbedder) (s : state) (w : world) :
  encode (model self) [] (env s) = (Return [], w) ->
  BGEEmbedder.embed_batch self [] s =
    (Return [],
     {| _model := _model s; trace := trace s ++ [Encode [] true];
        next_id := next_id s; env := w |})
  /\ error_lines (snd (BGEEmbedder.embed_batch self [] s)) = error_lines s.
Proof.
  intros Henc.
  rewrite (embed_batch_returns self [] s eq_refl Henc). cbn [snd].
  split; [reflexivity | count_events].
Qed.

End Embedding.

(** ** The facade on the small library *)

(** C1 as stated fails: [encode] raises a [ValueError] and the caller of
    [embed_text] gets that [ValueError], which is no [InferenceError]. *)
Lemma inference_failure_not_InferenceError :
  fst (@encode Demo.lib (model Demo.self) [""] (env Demo.warm)) =
    Raise Demo.empty_text
  /\ fst (BGEEmbedder.embed_text Demo.self (VStr "") Demo.warm) =
       Raise Demo.empty_text
  /\ ~ raises_a "InferenceError"
         (fst (BGEEmbedder.embed_text Demo.self (VStr "") Demo.warm)).
Proof.
  split; [reflexivity|]. split; [reflexivity|].
  intros (e & He & Hcls). vm_compute in He. injection He as <-.
  vm_compute in Hcls. discriminate Hcls.
Qed.

Lemma inference_failure_logged_and_reraised_witness :
  failure Demo.empty_text
  /\ BGEEmbedder.embed_text Demo.self (VStr "") Demo.warm =
       (Raise Demo.empty_text,
        {| _model := _model Demo.warm;
           trace := [Encode [""] false;
                     Print "Error generating embedding: empty text"];
           next_id := 1; env := 0%nat |})
  /\ BGEEmbedder.embed_batch Demo.self [VInt 7; VStr ""] Demo.warm =
       (Raise Demo.empty_text,
        {| _model := _model Demo.warm;
           trace := [Encode ["7"; ""] false;
                     Print "Error generating batch embeddings: empty text"];
           next_id := 1; env := 0%nat |}).
Proof.
  assert (He : failure Demo.empty_text) by reflexivity.
  split; [exact He|].
  destruct (@inference_failure_logged_and_reraised
              Demo.lib Demo.self (VStr "") [VInt 7; VStr ""] Demo.warm
              Demo.empty_text 0%nat He) as [Htext Hbatch].
  split; [apply (Htext "") | apply (Hbatch ["7"; ""])]; reflexivity.
Defined.

(** C2 as stated fails: the loader raises an [OSError] and the constructor
    call ends in that [OSError], which is no [ModelLoadError]. *)
Lemma construction_failure_not_ModelLoadError :
  fst (@SentenceTransformer Demo.lib "no/such-model" 1%nat) =
    Raise (OSError "cannot load no/such-model")
  /\ fst (BGEEmbedder.new "no/such-model" (initial (L := Demo.lib) 1%nat)) =
       Raise (OSError "cannot load no/such-model")
  /\ ~ raises_a "ModelLoadError"
         (fst (BGEEmbedder.new "no/such-model"
                 (initial (L := Demo.lib) 1%nat))).
Proof.
  split; [reflexivity|]. split; [reflexivity|].
  intros (e & He & Hcls). vm_compute in He. injection He as <-.
  vm_compute in Hcls. discriminate Hcls.
Qed.

Lemma construction_failure_logged_and_reraised_witness :
  BGEEmbedder.new "no/such-model" (initial (L := Demo.lib) 1%nat) =
    (Raise (OSError "cannot load no/such-model"),
     @mkState Demo.lib None
       [Print "Initializing BGE model: no/such-model";
        Construct "no/such-model" false;
        Print "Error initializing model: cannot load no/such-model"]
       1 0%nat).
Proof.
  apply (@construction_failure_logged_and_reraised
           Demo.lib "no/such-model" (initial (L := Demo.lib) 1%nat)
           (OSError "cannot load no/such-model") 0%nat);
    reflexivity.
Defined.



Lemma get_model_failure_caches_nothing_witness :
  fst (get_model (initial (L := Demo.lib) 1%nat)) =
    Raise (OSError "cannot load BAAI/bge-m3")
  /\ _model (snd (get_model (initial (L := Demo.lib) 1%nat))) = None.
Proof.
  apply (@get_model_failure_caches_nothing
           Demo.lib (initial (L := Demo.lib) 1%nat)
           (OSError "cannot load BAAI/bge-m3") 0%nat);
    reflexivity.
Defined.

Lemma embedding_calls_keep_handle_witness :
  _model (snd (embed_text (VInt 5) Demo.warm)) = Some Demo.self
  /\ _model (snd (embed_text_batch [VStr ""; VNone] Demo.warm)) =
       Some Demo.self.
Proof.
  apply (@embedding_calls_keep_handle
           Demo.lib Demo.warm Demo.self (VInt 5) [VStr ""; VNone]).
  reflexivity.
Defined.

Lemma failed_get_model_is_retried_witness :
  let s2 := snd (get_model_times 2 (initial (L := Demo.lib) 2%nat)) in
  _model s2 = None
  /\ constructor_calls s2 = 2
  /\ constructor_calls (snd (get_model s2)) = 3
  /\ exists h, fst (get_model s2) = Return h
               /\ model h = Demo.name
               /\ _model (snd (get_model s2)) = Some h.
Proof.
  cbv zeta.
  destruct (@failed_get_model_is_retried Demo.lib 2
              (initial (L := Demo.lib) 2%nat) eq_refl)
    as (Hnone & Hcalls & Hnext & Hthen).
  - intros r [<-|[<-|[]]]; reflexivity.
  - repeat split; try assumption.
    apply (Hthen Demo.name 0%nat). reflexivity.
Defined.

(** C6 as stated fails: on the integer with 4301 digits [str] raises.
    [embed_text] on it prints an error line before it raises, and hands
    nothing to the model; the expression [embed_text(str(x))] raises at the
    caller and nothing is printed. *)
Lemma embed_text_logs_where_str_of_input_raises :
  isinstance_str Demo.huge = false
  /\ str Demo.huge = Raise int_str_limit_error
  /\ BGEEmbedder.embed_text Demo.self Demo.huge Demo.warm =
       (Raise int_str_limit_error,
        @mkState Demo.lib (_model Demo.warm)
          [Print ("Error generating embedding: " ++
                  str_exn int_str_limit_error)]
          1 0%nat)
  /\ on_str (BGEEmbedder.embed_text Demo.self) Demo.huge Demo.warm =
       (Raise int_str_limit_error, Demo.warm)
  /\ BGEEmbedder.embed_text Demo.self Demo.huge Demo.warm <>
     on_str (BGEEmbedder.embed_text Demo.self) Demo.huge Demo.warm.
Proof.
  assert (Hrun : BGEEmbedder.embed_text Demo.self Demo.huge Demo.warm =
                 (Raise int_str_limit_error,
                  @mkState Demo.lib (_model Demo.warm)
                    [Print ("Error generating embedding: " ++
                            str_exn int_str_limit_error)]
                    1 0%nat)).
  { now rewrite (@embed_text_str_fails Demo.lib Demo.self Demo.huge
                   Demo.warm int_str_limit_error str_huge eq_refl). }
  assert (Hexp : on_str (BGEEmbedder.embed_text Demo.self) Demo.huge
                   Demo.warm = (Raise int_str_limit_error, Demo.warm)).
  { unfold on_str, bind, builtin. now rewrite str_huge. }
  split; [reflexivity|]. split; [exact str_huge|].
  split; [exact Hrun|]. split; [exact Hexp|].
  rewrite Hrun, Hexp. intros Heq. injection Heq as Htrace.
  discriminate Htrace.
Qed.

Lemma embed_text_coerces_to_str_witness :
  BGEEmbedder.embed_text Demo.self (VInt (-12)) Demo.warm =
    BGEEmbedder.embed_text Demo.self (VStr "-12") Demo.warm
  /\ fst (BGEEmbedder.embed_text Demo.self Demo.pi Demo.warm) =
       Return [4%Z; 1%Z]
  /\ fst (BGEEmbedder.embed_text Demo.self Demo.broken Demo.warm) =
       Raise (ValueError "no string form").
Proof.
  destruct (@embed_text_coerces_to_str Demo.lib Demo.self (VInt (-12))
              Demo.warm eq_refl) as (_ & Hint & _).
  destruct (@embed_text_coerces_to_str Demo.lib Demo.self Demo.pi
              Demo.warm eq_refl) as (_ & Hpi & _).
  destruct (@embed_text_coerces_to_str Demo.lib Demo.self Demo.broken
              Demo.warm eq_refl) as (_ & _ & Hbroken).
  split; [|split].
  - now destruct (Hint "-12" eq_refl) as (_ & -> & _).
  - now destruct (Hpi "3.14" eq_refl) as (_ & -> & _).
  - now destruct (Hbroken (ValueError "no string form") eq_refl) as (-> & _).
Defined.

Lemma embed_batch_empty_witness :
  fst (BGEEmbedder.embed_batch Demo.self [] Demo.warm) = Return [].
Proof.
  destruct (@embed_batch_empty Demo.lib Demo.self Demo.warm 0%nat eq_refl)
    as [-> _]. reflexivity.
Defined.





(** An exception outside [Exception] is not a failure: an interrupt from
    the keyboard during loading passes through the constructor and no error
    line is printed. *)
Example keyboard_interrupt_passes_unlogged :
  BGEEmbedder.new Demo.name (initial (L := Demo.interrupted) 0%nat) =
    (Raise KeyboardInterrupt,
     @mkState Demo.interrupted None
       [Print "Initializing BGE model: BAAI/bge-m3";
        Construct "BAAI/bge-m3" false]
       1 0%nat).
Proof. reflexivity. Qed.

(** * Further properties of the facade *)

(** ** The methods, whatever the library does *)

Section MethodRuns.
Context `{L : SentenceTransformers}.

Lemma embed_text_error_lines (self : BGEEmbedder) text (s : state) :
  error_lines (snd (BGEEmbedder.embed_text self text s)) =
  error_lines s + error_count (fst (BGEEmbedder.embed_text self text s)).
Proof.
  destruct (embed_text_cases self text s)
    as [(e & _ & He & ->)
       |[(e & _ & He & ->)
        |[(t & row & rows & w & _ & _ & ->)
         |[(t & w & _ & _ & ->)
          |[(t & e & w & _ & _ & He & ->)|(t & e & w & _ & _ & He & ->)]]]]];
    cbn [fst snd error_count]; rewrite ?He; count_events.
Qed.

Lemma embed_batch_error_lines (self : BGEEmbedder) texts (s : state) :
  error_lines (snd (BGEEmbedder.embed_batch self texts s)) =
  error_lines s + error_count (fst (BGEEmbedder.embed_batch self texts s)).
Proof.
  destruct (embed_batch_cases self texts s)
    as [(e & _ & He & ->)
       |[(e & _ & He & ->)
        |[(ts & rows & w & _ & _ & ->)
         |[(ts & e & w & _ & _ & He & ->)|(ts & e & w & _ & _ & He & ->)]]]];
    cbn [fst snd error_count]; rewrite ?He; count_events.
Qed.

Lemma new_error_lines (model_name : string) (s : state) :
  error_lines (snd (BGEEmbedder.new model_name s)) =
  error_lines s + error_count (fst (BGEEmbedder.new model_name s)).
Proof.
  destruct (new_cases model_name s)
    as [(m & w & _ & ->)
       |[(e & w & _ & He & ->)|(e & w & _ & He & ->)]];
    cbn [fst snd error_count]; rewrite ?He; count_events.
Qed.

Lemma embed_text_encode_calls (self : BGEEmbedder) text (s : state) :
  encode_calls (snd (BGEEmbedder.embed_text self text s)) =
  encode_calls s + (if is_ok (str text) then 1 else 0).
Proof.
  destruct (embed_text_cases self text s)
    as [(e & -> & _ & ->)
       |[(e & -> & _ & ->)
        |[(t & row & rows & w & -> & _ & ->)
         |[(t & w & -> & _ & ->)
          |[(t & e & w & -> & _ & _ & ->)
           |(t & e & w & -> & _ & _ & ->)]]]]];
    cbn [snd is_ok]; count_events.
Qed.

Lemma embed_batch_encode_calls (self : BGEEmbedder) texts (s : state) :
  encode_calls (snd (BGEEmbedder.embed_batch self texts s)) =
  encode_calls s + (if is_ok (str_all texts) then 1 else 0).
Proof.
  destruct (embed_batch_cases self texts s)
    as [(e & -> & _ & ->)
       |[(e & -> & _ & ->)
        |[(ts & rows & w & -> & _ & ->)
         |[(ts & e & w & -> & _ & _ & ->)
          |(ts & e & w & -> & _ & _ & ->)]]]];
    cbn [snd is_ok]; count_events.
Qed.

End MethodRuns.

Section MethodProperties.
Context `{L : SentenceTransformers}.

(** X1.  The constructor, [embed_text] and [embed_batch] print an error
    line exactly when they end in a failure: one line for a raised
    exception derived from [Exception], none when they return and none for
    an exception outside [Exception]. *)
Theorem error_line_iff_failure :
  (forall model_name (s : state),
      error_lines (snd (BGEEmbedder.new model_name s)) =
      error_lines s + error_count (fst (BGEEmbedder.new model_name s)))
  /\ (forall (self : BGEEmbedder) text (s : state),
         error_lines (snd (BGEEmbedder.embed_text self text s)) =
         error_lines s
         + error_count (fst (BGEEmbedder.embed_text self text s)))
  /\ (forall (self : BGEEmbedder) texts (s : state),
         error_lines (snd (BGEEmbedder.embed_batch self texts s)) =
         error_lines s
         + error_count (fst (BGEEmbedder.embed_batch self texts s))).
Proof.
  split; [|split].
  - apply new_error_lines.
  - apply embed_text_error_lines.
  - apply embed_batch_error_lines.
Qed.

(** X2.  An exception that does not derive from [Exception] (an interrupt
    from the keyboard, a request to exit) is not handled: it leaves the
    constructor, [embed_text] and [embed_batch] as it is, no error line is
    printed, and the external call is the last thing the facade did. *)
Theorem interrupts_pass_unlogged
    (e : exn) (model_name : string) (self : BGEEmbedder)
    (text : value) (texts : list value) (s : state) (w : world) :
  isinstance_exn e "Exception" = false ->
  (SentenceTransformer model_name (env s) = (Raise e, w) ->
   fst (BGEEmbedder.new model_name s) = Raise e
   /\ error_lines (snd (BGEEmbedder.new model_name s)) = error_lines s
   /\ last (trace (snd (BGEEmbedder.new model_name s))) (Print "") =
      Construct model_name false)
  /\ (forall t,
         str text = Return t ->
         encode (model self) [t] (env s) = (Raise e, w) ->
         fst (BGEEmbedder.embed_text self text s) = Raise e
         /\ error_lines (snd (BGEEmbedder.embed_text self text s)) =
            error_lines s
         /\ last (trace (snd (BGEEmbedder.embed_text self text s)))
              (Print "") =
            Encode [t] false)
  /\ (forall ts,
         str_all texts = Return ts ->
         encode (model self) ts (env s) = (Raise e, w) ->
         fst (BGEEmbedder.embed_batch self texts s) = Raise e
         /\ error_lines (snd (BGEEmbedder.embed_batch self texts s)) =
            error_lines s
         /\ last (trace (snd (BGEEmbedder.embed_batch self texts s)))
              (Print "") =
            Encode ts false).
Proof.
  intros He. split; [|split].
  - intros Hcall. rewrite (new_passes _ _ Hcall He). cbn [fst snd trace].
    repeat split; [count_events | rewrite last_appended; reflexivity].
  - intros t Hstr Hcall.
    rewrite (embed_text_passes _ _ _ Hstr Hcall He). cbn [fst snd trace].
    repeat split; [count_events | rewrite last_appended; reflexivity].
  - intros ts Hstr Hcall.
    rewrite (embed_batch_passes _ _ _ Hstr Hcall He). cbn [fst snd trace].
    repeat split; [count_events | rewrite last_appended; reflexivity].
Qed.

(** X3.  If [encode] gives back an array without rows for the one text of
    [embed_text], taking row 0 fails: [embed_text] prints an error line and
    raises an [IndexError], while [embed_batch] on that one text returns the
    empty list without complaint. *)
Theorem embed_text_on_empty_array
    (self : BGEEmbedder) (text : value) (t : string) (s : state)
    (w : world) :
  str text = Return t ->
  encode (model self) [t] (env s) = (Return [], w) ->
  (exists e,
      fst (BGEEmbedder.embed_text self text s) = Raise e
      /\ isinstance_exn e "IndexError" = true
      /\ last (trace (snd (BGEEmbedder.embed_text self text s))) (Print "") =
         Print ("Error generating embedding: " ++ str_exn e))
  /\ error_lines (snd (BGEEmbedder.embed_text self text s)) =
     S (error_lines s)
  /\ BGEEmbedder.embed_batch self [text] s =
       (Return [],
        {| _model := _model s; trace := trace s ++ [Encode [t] true];
           next_id := next_id s; env := w |}).
Proof.
  intros Hstr Henc. rewrite (embed_text_no_row _ _ _ Hstr Henc).
  cbn [fst snd trace]. split; [|split].
  - eexists. split; [reflexivity|]. split; [reflexivity|].
    rewrite last_appended. reflexivity.
  - count_events.
  - apply (embed_batch_returns self [text] s (ts := [t])); [|exact Henc].
    rewrite str_all_cons, Hstr. reflexivity.
Qed.

(** X4.  A request goes to [encode] at most once, and only after every
    input got its string form: [embed_text] calls [encode] once with the
    one coerced text, [embed_batch] once with all coerced texts in their
    order, whatever [encode] then does; when [str] raises on an input,
    [encode] is not called at all. *)
Theorem one_encode_call_per_request
    (self : BGEEmbedder) (text : value) (texts : list value) (s : state) :
  (encode_calls (snd (BGEEmbedder.embed_text self text s)) =
     encode_calls s + (if is_ok (str text) then 1 else 0)
   /\ forall t,
        str text = Return t ->
        exists ok more,
          trace (snd (BGEEmbedder.embed_text self text s)) =
            (trace s ++ Encode [t] ok :: more)%list
          /\ filter is_Encode more = [])
  /\ (encode_calls (snd (BGEEmbedder.embed_batch self texts s)) =
        encode_calls s + (if is_ok (str_all texts) then 1 else 0)
      /\ forall ts,
           str_all texts = Return ts ->
           exists ok more,
             trace (snd (BGEEmbedder.embed_batch self texts s)) =
               (trace s ++ Encode ts ok :: more)%list
             /\ filter is_Encode more = []).
Proof.
  split; split.
  - apply embed_text_encode_calls.
  - intros t Hstr.
    destruct (embed_text_cases self text s)
      as [(e & Hx & _ & _)
         |[(e & Hx & _ & _)
          |[(t' & row & rows & w & Hx & _ & ->)
           |[(t' & w & Hx & _ & ->)
            |[(t' & e & w & Hx & _ & _ & ->)
             |(t' & e & w & Hx & _ & _ & ->)]]]]];
      rewrite Hstr in Hx; try discriminate Hx;
      injection Hx as <-; cbn [snd trace]; eexists _, _; split; reflexivity.
  - apply embed_batch_encode_calls.
  - intros ts Hstr.
    destruct (embed_batch_cases self texts s)
      as [(e & Hx & _ & _)
         |[(e & Hx & _ & _)
          |[(ts' & rows & w & Hx & _ & ->)
           |[(ts' & e & w & Hx & _ & _ & ->)
            |(ts' & e & w & Hx & _ & _ & ->)]]]];
      rewrite Hstr in Hx; try discriminate Hx;
      injection Hx as <-; cbn [snd trace]; eexists _, _; split; reflexivity.
Qed.

(** X5.  [embed_batch] turns every element into a string, strings
    included: when [str] returns on every element, it does on the list
    exactly what it does on the list of the elements' string forms, in the
    method and in [embed_text_batch]. *)
Theorem embed_batch_coerces_to_str
    (self : BGEEmbedder) (texts : list value) (ts : list string)
    (s : state) :
  str_all texts = Return ts ->
  BGEEmbedder.embed_batch self texts s =
    BGEEmbedder.embed_batch self (map VStr ts) s
  /\ embed_text_batch texts s = embed_text_batch (map VStr ts) s.
Proof.
  intros Hstr.
  assert (Hts : str_all (map VStr ts) = Return ts).
  { clear Hstr. induction ts as [|t ts IH]; [reflexivity|].
    cbn [map]. rewrite str_all_cons, IH. reflexivity. }
  assert (Hsame : forall self',
             BGEEmbedder.embed_batch self' texts =
             BGEEmbedder.embed_batch self' (map VStr ts)).
  { intros self'. unfold BGEEmbedder.embed_batch.
    now rewrite Hstr, Hts. }
  split; [now rewrite Hsame|].
  unfold embed_text_batch, bind.
  destruct (get_model s) as [[h|e] s1]; [now rewrite Hsame | reflexivity].
Qed.


End MethodProperties.

(** ** The module-level functions, whatever the library does *)

Section ApiRuns.
Context `{L : SentenceTransformers}.

Lemma run_call_serve (c : call) (s : state) :
  run_call c s = bind get_model (serve c) s.
Proof.
  destruct c as [|text|texts]; unfold run_call, serve;
    [reflexivity | unfold embed_text | unfold embed_text_batch];
    apply bind_bind.
Qed.

Lemma serve_facts (c : call) (h : BGEEmbedder) (s : state) :
  _model (snd (serve c h s)) = _model s
  /\ error_lines (snd (serve c h s)) =
     error_lines s + error_count (fst (serve c h s))
  /\ encode_calls (snd (serve c h s)) = encode_calls s + encodes c
  /\ constructor_calls (snd (serve c h s)) = constructor_calls s
  /\ foreign_constructs (snd (serve c h s)) = foreign_constructs s.
Proof.
  destruct c as [|text|texts];
    unfold serve, bind, foreign_constructs, encodes.
  - cbn. repeat split; lia.
  - destruct (embed_text_cases h text s)
      as [(e & -> & He & ->)
         |[(e & -> & He & ->)
          |[(t & row & rows & w & -> & _ & ->)
           |[(t & w & -> & _ & ->)
            |[(t & e & w & -> & _ & He & ->)
             |(t & e & w & -> & _ & He & ->)]]]]];
      cbn [fst snd ret error_count _model encodes is_ok]; rewrite ?He;
      repeat split; count_events.
  - destruct (embed_batch_cases h texts s)
      as [(e & -> & He & ->)
         |[(e & -> & He & ->)
          |[(ts & rows & w & -> & _ & ->)
           |[(ts & e & w & -> & _ & He & ->)
            |(ts & e & w & -> & _ & He & ->)]]]];
      cbn [fst snd ret error_count _model encodes is_ok]; rewrite ?He;
      repeat split; count_events.
Qed.

Lemma loaded_facts (s : state) m w :
  error_lines (loaded s m w) = error_lines s
  /\ encode_calls (loaded s m w) = encode_calls s
  /\ foreign_constructs (loaded s m w) = foreign_constructs s.
Proof.
  unfold loaded, foreign_constructs. repeat split; count_events.
Qed.

Lemma load_failed_facts (s : state) e w :
  error_lines (load_failed s e w) =
    error_lines s + (if isinstance_exn e "Exception" then 1 else 0)
  /\ encode_calls (load_failed s e w) = encode_calls s
  /\ foreign_constructs (load_failed s e w) = foreign_constructs s.
Proof.
  unfold load_failed, foreign_constructs.
  destruct (isinstance_exn e "Exception"); repeat split; count_events.
Qed.

(** The three ways a call can go. *)
Lemma run_call_cases (c : call) (s : state) :
  (exists h, _model s = Some h /\ run_call c s = serve c h s)
  \/ (exists m w,
         _model s = None
         /\ SentenceTransformer default_model_name (env s) = (Return m, w)
         /\ run_call c s =
            serve c {| id := next_id s; model := m |} (loaded s m w))
  \/ (exists e w,
         _model s = None
         /\ SentenceTransformer default_model_name (env s) = (Raise e, w)
         /\ run_call c s = (Raise e, load_failed s e w)).
Proof.
  rewrite run_call_serve. destruct (_model s) as [h|] eqn:Hm.
  - left. exists h. split; [reflexivity|]. now apply with_model_cached.
  - destruct (SentenceTransformer default_model_name (env s))
      as [[m|e] w] eqn:Hload.
    + right; left. exists m, w. repeat split.
      now apply with_model_builds.
    + right; right. exists e, w. repeat split.
      now apply with_model_raises.
Qed.

(** What every state of a process satisfies beyond [settled]: inference
    has not run while no handle is cached, and no model but the default one
    was asked of the loader. *)
Lemma run_call_keeps_order (c : call) (s : state) :
  (_model s = None -> encode_calls s = 0) ->
  foreign_constructs s = 0 ->
  (_model (snd (run_call c s)) = None ->
   encode_calls (snd (run_call c s)) = 0)
  /\ foreign_constructs (snd (run_call c s)) = 0.
Proof.
  intros Hidle Hdef.
  destruct (run_call_cases c s)
    as [(h & Hm & ->)|[(m & w & Hm & _ & ->)|(e & w & Hm & _ & ->)]].
  - destruct (serve_facts c h s) as (Hg & _ & _ & _ & Hf).
    rewrite Hg, Hf, Hm. split; [discriminate | exact Hdef].
  - destruct (serve_facts c {| id := next_id s; model := m |} (loaded s m w))
      as (Hg & _ & _ & _ & Hf).
    destruct (loaded_facts s m w) as (_ & _ & Hf').
    rewrite Hg, Hf, Hf'. split; [discriminate | exact Hdef].
  - destruct (load_failed_facts s e w) as (_ & He & Hf).
    cbn [snd]. rewrite He, Hf. split; [intros _; now apply Hidle | exact Hdef].
Qed.

Lemma run_calls_keep_order (cs : list call) (s : state) :
  (_model s = None -> encode_calls s = 0) ->
  foreign_constructs s = 0 ->
  (_model (snd (run_calls cs s)) = None ->
   encode_calls (snd (run_calls cs s)) = 0)
  /\ foreign_constructs (snd (run_calls cs s)) = 0.
Proof.
  revert s. induction cs as [|c cs IH]; intros s Hidle Hdef; cbn [run_calls].
  - split; assumption.
  - destruct (run_call_keeps_order c s Hidle Hdef) as (Hidle1 & Hdef1).
    destruct (run_call c s) as [r s1]. cbn [snd] in *.
    specialize (IH s1 Hidle1 Hdef1).
    destruct (run_calls cs s1) as [rs s2]. exact IH.
Qed.

End ApiRuns.

Section ApiProperties.
Context `{L : SentenceTransformers}.

(** X7.  With no handle cached and a loader that raises [e], [embed_text]
    and [embed_text_batch] raise [e] without ever calling [encode]; the
    loader was called once, the global is still [None], and the one error
    line is the constructor's (none if [e] is outside [Exception]). *)
Theorem embedding_without_model_stops_at_load
    (text : value) (texts : list value) (s : state) (e : exn) (w : world) :
  _model s = None ->
  SentenceTransformer default_model_name (env s) = (Raise e, w) ->
  (fst (embed_text text s) = Raise e
   /\ fst (embed_text_batch texts s) = Raise e)
  /\ snd (embed_text text s) = snd (get_model s)
  /\ snd (embed_text_batch texts s) = snd (get_model s)
  /\ _model (snd (get_model s)) = None
  /\ encode_calls (snd (get_model s)) = encode_calls s
  /\ constructor_calls (snd (get_model s)) = S (constructor_calls s)
  /\ error_lines (snd (get_model s)) =
     error_lines s + (if isinstance_exn e "Exception" then 1 else 0).
Proof.
  intros Hm Hload. unfold embed_text, embed_text_batch.
  rewrite !(with_model_raises _ _ Hm Hload).
  rewrite (get_model_raises _ Hm Hload). cbn [fst snd].
  fold (load_failed s e w).
  destruct (load_failed_facts s e w) as (He & Hc & _).
  destruct (load_failed_counts s e w) as (Hk & _).
  repeat split; assumption.
Qed.

(** X8.  The first embedding request of a process loads the default model
    and then encodes, in this order: the start line, the loader call, the
    success line, the [encode] call.  The handle is cached with the loaded
    model and the request returns what [encode] gave. *)
Theorem first_request_loads_then_encodes
    (text : value) (texts : list value) (s : state)
    (m : ndmodel) (w1 : world) :
  _model s = None ->
  SentenceTransformer default_model_name (env s) = (Return m, w1) ->
  (forall t row rows w2,
      str text = Return t ->
      encode m [t] w1 = (Return (row :: rows), w2) ->
      embed_text text s =
        (Return row,
         {| _model := Some {| id := next_id s; model := m |};
            trace := trace s ++
              [Print ("Initializing BGE model: " ++ default_model_name);
               Construct default_model_name true;
               Print "Model initialized successfully";
               Encode [t] true];
            next_id := S (next_id s); env := w2 |}))
  /\ (forall ts rows w2,
         str_all texts = Return ts ->
         encode m ts w1 = (Return rows, w2) ->
         embed_text_batch texts s =
           (Return rows,
            {| _model := Some {| id := next_id s; model := m |};
               trace := trace s ++
                 [Print ("Initializing BGE model: " ++ default_model_name);
                  Construct default_model_name true;
                  Print "Model initialized successfully";
                  Encode ts true];
               next_id := S (next_id s); env := w2 |})).
Proof.
  intros Hm Hload. split.
  - intros t row rows w2 Hstr Henc. unfold embed_text.
    rewrite (with_model_builds _ _ Hm Hload).
    rewrite (@embed_text_returns L {| id := next_id s; model := m |} text
               (loaded s m w1) t row rows w2 Hstr Henc).
    unfold loaded. cbn [_model trace next_id env].
    rewrite <- app_assoc. reflexivity.
  - intros ts rows w2 Hstr Henc. unfold embed_text_batch.
    rewrite (with_model_builds _ _ Hm Hload).
    rewrite (@embed_batch_returns L {| id := next_id s; model := m |} texts
               (loaded s m w1) ts rows w2 Hstr Henc).
    unfold loaded. cbn [_model trace next_id env].
    rewrite <- app_assoc. reflexivity.
Qed.

(** X9.  In a process that makes any calls in any order, [encode] has not
    been called as long as no handle is cached: inference never runs before
    a successful load. *)
Theorem no_inference_before_load (w : world) (cs : list call) :
  _model (snd (run_calls cs (initial w))) = None ->
  encode_calls (snd (run_calls cs (initial w))) = 0.
Proof.
  apply (@run_calls_keep_order L cs (initial w)).
  - reflexivity.
  - reflexivity.
Qed.

(** X10.  In a process that makes any calls in any order, every loader
    call is for the default model [BAAI/bge-m3]. *)
Theorem only_default_model_loaded (w : world) (cs : list call) :
  foreign_constructs (snd (run_calls cs (initial w))) = 0.
Proof.
  apply (@run_calls_keep_order L cs (initial w)).
  - reflexivity.
  - reflexivity.
Qed.

(** X11.  Once a handle is cached, [get_model()] gives it back and changes
    nothing at all, and [embed_text] and [embed_text_batch] are the methods
    of that handle. *)
Theorem module_functions_delegate
    (s : state) (h : BGEEmbedder) (text : value) (texts : list value) :
  _model s = Some h ->
  get_model s = (Return h, s)
  /\ embed_text text s = BGEEmbedder.embed_text h text s
  /\ embed_text_batch texts s = BGEEmbedder.embed_batch h texts s.
Proof.
  intros Hm. split; [now apply get_model_cached|].
  unfold embed_text, embed_text_batch.
  now rewrite !(with_model_cached _ _ Hm).
Qed.

(** X12.  Every call of [get_model], [embed_text] or [embed_text_batch], in
    any state, prints one error line if it ends in a failure and none
    otherwise: a failed load inside an embedding call is reported once, by
    the constructor alone. *)
Theorem api_call_error_line_iff_failure (c : call) (s : state) :
  error_lines (snd (run_call c s)) =
  error_lines s + error_count (fst (run_call c s)).
Proof.
  destruct (run_call_cases c s)
    as [(h & Hm & ->)|[(m & w & Hm & _ & ->)|(e & w & Hm & _ & ->)]].
  - apply serve_facts.
  - destruct (serve_facts c {| id := next_id s; model := m |} (loaded s m w))
      as (_ & -> & _).
    now destruct (loaded_facts s m w) as (-> & _).
  - cbn [fst snd error_count]. apply load_failed_facts.
Qed.

(** X13.  What one call costs: the loader is called once if no handle was
    cached and not at all otherwise; [encode] is called once by an
    embedding call that has a handle when it ends and whose inputs all got
    their string form, and never by [get_model], by an embedding call whose
    load failed, or by one on whose input [str] raised. *)
Theorem api_call_external_calls (c : call) (s : state) :
  constructor_calls (snd (run_call c s)) =
    constructor_calls s + match _model s with Some _ => 0 | None => 1 end
  /\ encode_calls (snd (run_call c s)) =
       encode_calls s
       + match _model (snd (run_call c s)) with
         | Some _ => encodes c
         | None => 0
         end.
Proof.
  destruct (run_call_cases c s)
    as [(h & Hm & ->)|[(m & w & Hm & _ & ->)|(e & w & Hm & _ & ->)]].
  - destruct (serve_facts c h s) as (-> & _ & -> & -> & _).
    rewrite Hm. split; lia.
  - destruct (serve_facts c {| id := next_id s; model := m |} (loaded s m w))
      as (-> & _ & -> & -> & _).
    destruct (loaded_facts s m w) as (_ & -> & _).
    destruct (loaded_counts s m w) as (-> & _).
    rewrite Hm. cbn [loaded _model]. split; lia.
  - cbn [snd]. destruct (load_failed_facts s e w) as (_ & -> & _).
    destruct (load_failed_counts s e w) as (-> & _).
    rewrite Hm. cbn [load_failed _model]. split; lia.
Qed.

End ApiProperties.

(** ** The further properties on the small libraries *)

Lemma interrupts_pass_unlogged_witness :
  (fst (BGEEmbedder.new "some/model" Demo.stopped_warm) =
     Raise KeyboardInterrupt
   /\ error_lines (snd (BGEEmbedder.new "some/model" Demo.stopped_warm)) = 0)
  /\ (fst (BGEEmbedder.embed_text Demo.stopped_self (VStr "a")
             Demo.stopped_warm) = Raise KeyboardInterrupt
      /\ error_lines
           (snd (BGEEmbedder.embed_text Demo.stopped_self (VStr "a")
                   Demo.stopped_warm)) = 0)
  /\ (fst (BGEEmbedder.embed_batch Demo.stopped_self [VStr "a"; VInt 1]
             Demo.stopped_warm) = Raise KeyboardInterrupt
      /\ error_lines
           (snd (BGEEmbedder.embed_batch Demo.stopped_self
                   [VStr "a"; VInt 1] Demo.stopped_warm)) = 0).
Proof.
  destruct (@interrupts_pass_unlogged
              Demo.stopped KeyboardInterrupt "some/model"
              Demo.stopped_self (VStr "a")
              [VStr "a"; VInt 1]
              Demo.stopped_warm 0%nat eq_refl)
    as (Hnew & Htext & Hbatch).
  destruct (Hnew eq_refl) as (Hn1 & Hn2 & _).
  destruct (Htext "a" eq_refl eq_refl) as (Ht1 & Ht2 & _).
  destruct (Hbatch ["a"; "1"] eq_refl eq_refl) as (Hb1 & Hb2 & _).
  repeat split; assumption.
Defined.

Lemma embed_text_on_empty_array_witness :
  error_lines
    (snd (BGEEmbedder.embed_text Demo.hollow_self (VStr "a")
            Demo.hollow_warm)) = 1
  /\ fst (BGEEmbedder.embed_batch Demo.hollow_self [VStr "a"]
            Demo.hollow_warm) = Return [].
Proof.
  destruct (@embed_text_on_empty_array
              Demo.hollow Demo.hollow_self (VStr "a") "a"
              Demo.hollow_warm 0%nat eq_refl eq_refl)
    as (_ & Hlines & Hbatch).
  split; [exact Hlines | now rewrite Hbatch].
Defined.


Lemma embedding_without_model_stops_at_load_witness :
  fst (embed_text (VStr "a") (Demo.fresh 1)) =
    Raise (OSError "cannot load BAAI/bge-m3")
  /\ fst (embed_text_batch [VStr "a"] (Demo.fresh 1)) =
       Raise (OSError "cannot load BAAI/bge-m3")
  /\ encode_calls (snd (get_model (Demo.fresh 1))) = 0.
Proof.
  destruct (@embedding_without_model_stops_at_load
              Demo.lib (VStr "a") [VStr "a"] (Demo.fresh 1)
              (OSError "cannot load BAAI/bge-m3") 0%nat eq_refl eq_refl)
    as ((Htext & Hbatch) & _ & _ & _ & Henc & _).
  repeat split; assumption.
Defined.

Lemma first_request_loads_then_encodes_witness :
  fst (embed_text (VStr "hi") (Demo.fresh 0)) = Return [2%Z; 1%Z]
  /\ fst (embed_text_batch [VStr "hi"; VNone] (Demo.fresh 0)) =
       Return [[2%Z; 1%Z]; [4%Z; 1%Z]].
Proof.
  destruct (@first_request_loads_then_encodes
              Demo.lib (VStr "hi") [VStr "hi"; VNone]
              (Demo.fresh 0) Demo.name 0%nat
              eq_refl eq_refl)
    as (Htext & Hbatch).
  split.
  - now rewrite (Htext "hi" [2%Z; 1%Z] [] 0%nat eq_refl eq_refl).
  - now rewrite (Hbatch ["hi"; "None"] [[2%Z; 1%Z]; [4%Z; 1%Z]] 0%nat
                   eq_refl eq_refl).
Defined.

Lemma no_inference_before_load_witness :
  encode_calls
    (snd (run_calls [EmbedText (VStr "a"); GetModel]
            (Demo.fresh 2))) = 0.
Proof.
  apply (@no_inference_before_load
           Demo.lib 2%nat [EmbedText (VStr "a"); GetModel]).
  reflexivity.
Defined.

Lemma module_functions_delegate_witness :
  get_model Demo.warm = (Return Demo.self, Demo.warm)
  /\ embed_text (VInt 5) Demo.warm =
       BGEEmbedder.embed_text Demo.self (VInt 5) Demo.warm
  /\ embed_text_batch [VNone] Demo.warm =
       BGEEmbedder.embed_batch Demo.self [VNone] Demo.warm.
Proof.
  apply (@module_functions_delegate
           Demo.lib Demo.warm Demo.self (VInt 5) [VNone]).
  reflexivity.
Defined.

Lemma one_encode_call_per_request_witness :
  encode_calls (snd (BGEEmbedder.embed_text Demo.self Demo.pi Demo.warm)) = 1
  /\ encode_calls
       (snd (BGEEmbedder.embed_text Demo.self Demo.broken Demo.warm)) = 0
  /\ exists ok more,
       trace (snd (BGEEmbedder.embed_batch Demo.self [VInt 7; Demo.pi]
                     Demo.warm)) =
       Encode ["7"; "3.14"] ok :: more.
Proof.
  destruct (@one_encode_call_per_request
              Demo.lib Demo.self Demo.pi [VInt 7; Demo.pi] Demo.warm)
    as ((Hpi & _) & (_ & Hbatch)).
  destruct (@one_encode_call_per_request
              Demo.lib Demo.self Demo.broken [] Demo.warm)
    as ((Hbroken & _) & _).
  split; [exact Hpi|]. split; [exact Hbroken|].
  destruct (Hbatch ["7"; "3.14"] eq_refl) as (ok & more & Htrace & _).
  exists ok, more. exact Htrace.
Defined.

Lemma embed_batch_coerces_to_str_witness :
  BGEEmbedder.embed_batch Demo.self [VInt 7; VNone; Demo.pi] Demo.warm =
    BGEEmbedder.embed_batch Demo.self
      [VStr "7"; VStr "None"; VStr "3.14"] Demo.warm.
Proof.
  apply (@embed_batch_coerces_to_str
           Demo.lib Demo.self [VInt 7; VNone; Demo.pi]
           ["7"; "None"; "3.14"] Demo.warm).
  reflexivity.
Defined.
